(** * convert_to_onnx.py: the checkpoint-to-ONNX conversion script

    A shallow embedding of [src/convert_to_onnx.py].  The script is a
    module-level [import], two string constants and one [try] statement
    with three [except] clauses.  Everything it does is: print to standard
    output, call the model library twice, and dispatch on the class of the
    exception a call raised.  The embedding therefore has

    - the part of Python's exception class hierarchy the [except] clauses
      look at, with [issubclass] computed along the chain of bases;
    - a state-and-exception monad [Py] over a [World] that holds the lines
      the script printed, the working directory, and the trace of the
      library calls made so far;
    - the model library as a record of functions (it is an external
      collaborator: the script is stated for every library), and one
      reference library that behaves as the real one does on the points
      the script relies on, for concrete runs.

    Modelling conventions: one [print] call appends one entry to [stdout],
    without the line terminator, and raises [UnicodeEncodeError] when the
    encoding of standard output cannot encode the text (the constant lines
    of the script are ASCII, which every encoding takes; the text of an
    exception need not be); [str(e)] is the text the exception carries;
    only the script's own output is recorded, not what the library logs. *)

From stdpp Require Import gmap strings list.
From Stdlib Require Import Ascii ZArith.

Local Open Scope string_scope.

(** ** Exception classes *)

(** The built-in classes the script names or that sit above them, and
    [Subclass] for every class a library defines on top of them
    (single inheritance, as for all the classes concerned here). *)
Inductive ExcClass : Type :=
  | BaseException
  | SystemExit
  | KeyboardInterrupt
  | Exception
  | OSError
  | FileNotFoundError
  | ImportError
  | ModuleNotFoundError
  | RuntimeError
  | Subclass (name : string) (base : ExcClass).

#[global] Instance ExcClass_eq_dec : EqDecision ExcClass.
Proof. solve_decision. Defined.

(** The class followed by its bases, most derived first. *)
Fixpoint mro (c : ExcClass) : list ExcClass :=
  match c with
  | BaseException => [BaseException]
  | SystemExit => [SystemExit; BaseException]
  | KeyboardInterrupt => [KeyboardInterrupt; BaseException]
  | Exception => [Exception; BaseException]
  | OSError => [OSError; Exception; BaseException]
  | FileNotFoundError => [FileNotFoundError; OSError; Exception; BaseException]
  | ImportError => [ImportError; Exception; BaseException]
  | ModuleNotFoundError => [ModuleNotFoundError; ImportError; Exception; BaseException]
  | RuntimeError => [RuntimeError; Exception; BaseException]
  | Subclass n b => Subclass n b :: mro b
  end.

Definition issubclass (c d : ExcClass) : bool := bool_decide (d ∈ mro c).

(** An exception object: its class and what [str] returns on it. *)
Record Exn : Type := mkExn { exc_class : ExcClass; exc_str : string }.

Definition isinstance (e : Exn) (c : ExcClass) : bool :=
  issubclass (exc_class e) c.

(** ** Values, files, the library *)

Inductive PyVal : Type :=
  | VNone
  | VBool (b : bool)
  | VInt (z : Z)
  | VStr (s : string).

(** Result of a call: a value, or a raised exception. *)
Inductive Outcome (A : Type) : Type :=
  | Returned (a : A)
  | Raised (e : Exn).
Arguments Returned {A} a.
Arguments Raised {A} e.

Definition nl : string := String "010"%char EmptyString.

(** ** The encoding of standard output *)

Definition is_ascii (a : ascii) : bool :=
  match a with
  | Ascii _ _ _ _ _ _ _ b7 => negb b7
  end.

Fixpoint ascii_only (s : string) : bool :=
  match s with
  | EmptyString => true
  | String a r => is_ascii a && ascii_only r
  end.

(** What [sys.stdout] does with a text: [encodable] tells whether its
    encoding (with the default strict error handling) takes it, and
    [encode_error] is the message of the [UnicodeEncodeError] raised when
    it does not.  ASCII text is taken by every encoding. *)
Class StdoutEncoding : Type := mkStdoutEncoding {
  encodable : string → bool;
  encode_error : string → string;
  encodable_ascii : ∀ s, ascii_only s = true → encodable s = true
}.

Definition UnicodeEncodeError : ExcClass :=
  Subclass "UnicodeEncodeError"
    (Subclass "UnicodeError" (Subclass "ValueError" Exception)).

(** Standard output in UTF-8, which takes every text: the encoding of the
    concrete runs below unless another one is named. *)
#[global] Instance utf8_stdout : StdoutEncoding :=
  mkStdoutEncoding (λ _, true)
    (λ _, "'utf-8' codec can't encode characters")
    (λ _ _, eq_refl).

(** Standard output in ASCII, as under [PYTHONIOENCODING=ascii]. *)
Definition ascii_stdout : StdoutEncoding :=
  mkStdoutEncoding ascii_only
    (λ _, "'ascii' codec can't encode characters: ordinal not in range(128)")
    (λ _ H, H).

Section Script.

(** The type of the in-memory model objects of the library, and the
    encoding of standard output. *)
Context {Model : Type} {enc : StdoutEncoding}.

(** The two entry points of the model library the script uses.  A call
    gets the directory as it is and gives back the directory as it leaves
    it, whether it returns or raises. *)
Record Library : Type := mkLibrary {
  YOLO : string → gmap string string → Outcome Model * gmap string string;
  export : Model → list PyVal → list (string * PyVal) →
           gmap string string → Outcome PyVal * gmap string string
}.

(** One entry of the trace of library calls, with the arguments passed:
    positional ones, then keyword ones in the order written. *)
Inductive Call : Type :=
  | CallYOLO (path : string)
  | CallExport (model : Model) (args : list PyVal) (kwargs : list (string * PyVal)).

Record World : Type := mkWorld {
  stdout : list string;
  files : gmap string string;
  calls : list Call
}.

(** ** The monad of script statements *)

Definition Py (A : Type) : Type := World → Outcome A * World.

#[local] Instance Py_ret : MRet Py := λ A a w, (Returned a, w).

#[local] Instance Py_bind : MBind Py := λ A B k c w,
  match c w with
  | (Returned a, w') => k a w'
  | (Raised e, w') => (Raised e, w')
  end.

Definition raise {A} (e : Exn) : Py A := λ w, (Raised e, w).

(** [print(s)]: the text is encoded first, so a text the encoding does not
    take raises before anything of it is written. *)
Definition print (s : string) : Py unit :=
  λ w, if encodable s
       then (Returned tt, mkWorld (stdout w ++ [s]) (files w) (calls w))
       else (Raised (mkExn UnicodeEncodeError (encode_error s)), w).

Definition call_YOLO (lib : Library) (path : string) : Py Model :=
  λ w, let '(r, fs) := YOLO lib path (files w) in
       (r, mkWorld (stdout w) fs (calls w ++ [CallYOLO path])).

Definition call_export (lib : Library) (m : Model)
    (args : list PyVal) (kwargs : list (string * PyVal)) : Py PyVal :=
  λ w, let '(r, fs) := export lib m args kwargs (files w) in
       (r, mkWorld (stdout w) fs (calls w ++ [CallExport m args kwargs])).

(** [try: body  except C1: h1  except C2: h2 ...]: the first clause whose
    class the exception is an instance of runs; with none, the exception
    goes on.  An exception raised inside a clause is not looked at by the
    other clauses: it leaves the statement. *)
Fixpoint dispatch (handlers : list (ExcClass * (Exn → Py unit))) (e : Exn) : Py unit :=
  match handlers with
  | [] => raise e
  | (c, h) :: rest => if isinstance e c then h e else dispatch rest e
  end.

Definition try_except (body : Py unit)
    (handlers : list (ExcClass * (Exn → Py unit))) : Py unit :=
  λ w, match body w with
       | (Returned a, w') => (Returned a, w')
       | (Raised e, w') => dispatch handlers e w'
       end.

(** ** The script *)

Definition pytorch_model_file : string := "model.pt".

Definition onnx_model_file : string := "stockmarket-pattern-detection-yolov8.onnx".

Definition export_kwargs : list (string * PyVal) :=
  [("format", VStr "onnx"); ("imgsz", VInt 640)].

(** Lines 11-24, the body of the [try]. *)
Definition try_body (lib : Library) : Py unit :=
  print ("Loading PyTorch model: " +:+ pytorch_model_file +:+ "...") ;;
  model ← call_YOLO lib pytorch_model_file ;
  print "Model loaded successfully." ;;
  print ("Exporting model to ONNX: " +:+ onnx_model_file +:+ "...") ;;
  _ ← call_export lib model [] export_kwargs ;
  print (nl +:+ "---") ;;
  print ("Success! '" +:+ onnx_model_file +:+ "' has been created.") ;;
  print "You can now run your MATLAB backtester." ;;
  print "---".

(** Lines 26-31. *)
Definition on_FileNotFoundError (_ : Exn) : Py unit :=
  print (nl +:+ "--- ERROR ---") ;;
  print ("File not found: " +:+ pytorch_model_file) ;;
  print "Please download 'model.pt' from the GitHub repository" ;;
  print "and place it in the same folder as this script." ;;
  print "---".

(** Lines 32-37. *)
Definition on_ImportError (_ : Exn) : Py unit :=
  print (nl +:+ "--- ERROR ---") ;;
  print "The 'ultralytics' library is not found." ;;
  print "Please install it by running:" ;;
  print "pip install ultralytics" ;;
  print "---".

(** Lines 38-41. *)
Definition on_Exception (e : Exn) : Py unit :=
  print (nl +:+ "--- AN ERROR OCCURRED ---") ;;
  print (exc_str e) ;;
  print "---".

Definition handlers : list (ExcClass * (Exn → Py unit)) :=
  [ (FileNotFoundError, on_FileNotFoundError);
    (ImportError, on_ImportError);
    (Exception, on_Exception) ].

(** Lines 10-41, the [try] statement. *)
Definition try_statement (lib : Library) : Py unit :=
  try_except (try_body lib) handlers.

(** What a run starts from: whether [ultralytics] can be imported (and
    then what it does), and the working directory. *)
Record Env : Type := mkEnv {
  ultralytics : option Library;
  cwd : gmap string string
}.

(** Line 1, [from ultralytics import YOLO]. *)
Definition import_ultralytics (env : Env) : Py Library :=
  match ultralytics env with
  | Some lib => mret lib
  | None => raise (mkExn ModuleNotFoundError "No module named 'ultralytics'")
  end.

(** The module, top to bottom. *)
Definition convert_to_onnx (env : Env) : Py unit :=
  lib ← import_ultralytics env ;
  try_statement lib.

Definition run (env : Env) : Outcome unit * World :=
  convert_to_onnx env (mkWorld [] (cwd env) []).

(** Exit status of the interpreter after the module ran: 0 when it ran to
    its end, 1 when an instance of [Exception] was left unhandled (after
    the traceback).  For [SystemExit] and [KeyboardInterrupt] the status
    comes from the exception's payload or from the signal, which are not
    modelled. *)
Definition exit_status (r : Outcome unit * World) : option Z :=
  match fst r with
  | Returned _ => Some 0%Z
  | Raised e => if isinstance e Exception then Some 1%Z else None
  end.

(** The ways through the body of the [try], as a relation between the
    world the body starts in and where it ends: the load raises; the load
    returns and the export raises; both return. *)
Inductive body_path (lib : Library) (w : World) : Outcome unit * World → Prop :=
  | path_load_raises e fs' :
      YOLO lib pytorch_model_file (files w) = (Raised e, fs') →
      body_path lib w
        (Raised e,
         mkWorld (stdout w ++ ["Loading PyTorch model: model.pt..."]) fs'
                 (calls w ++ [CallYOLO pytorch_model_file]))
  | path_export_raises m fs1 e fs2 :
      YOLO lib pytorch_model_file (files w) = (Returned m, fs1) →
      export lib m [] export_kwargs fs1 = (Raised e, fs2) →
      body_path lib w
        (Raised e,
         mkWorld (stdout w ++
                    ["Loading PyTorch model: model.pt...";
                     "Model loaded successfully.";
                     "Exporting model to ONNX: stockmarket-pattern-detection-yolov8.onnx..."])
                 fs2
                 (calls w ++ [CallYOLO pytorch_model_file;
                              CallExport m [] export_kwargs]))
  | path_returns m fs1 v fs2 :
      YOLO lib pytorch_model_file (files w) = (Returned m, fs1) →
      export lib m [] export_kwargs fs1 = (Returned v, fs2) →
      body_path lib w
        (Returned tt,
         mkWorld (stdout w ++
                    ["Loading PyTorch model: model.pt...";
                     "Model loaded successfully.";
                     "Exporting model to ONNX: stockmarket-pattern-detection-yolov8.onnx...";
                     nl +:+ "---";
                     "Success! 'stockmarket-pattern-detection-yolov8.onnx' has been created.";
                     "You can now run your MATLAB backtester.";
                     "---"])
                 fs2
                 (calls w ++ [CallYOLO pytorch_model_file;
                              CallExport m [] export_kwargs])).

End Script.

Arguments Library : clear implicits.
Arguments Env : clear implicits.
Arguments World : clear implicits.
Arguments Call : clear implicits.

(** ** A reference library

    The behaviour of the real library on the points the script touches: the
    constructor reads the checkpoint at the given path and raises
    [FileNotFoundError] when there is none, and another exception when the
    file is not a model archive (archives are zip files and start with
    [PK]); [export] to ONNX writes next to the checkpoint, under the
    checkpoint's name with its suffix replaced by [.onnx], overwrites what
    is there, and returns the path written.  It is told no file name. *)
Module Ref.

Record Model : Type := mkModel { pt_path : string; weights : string }.

(** [s] without its last suffix, when it has one. *)
Fixpoint strip_suffix (s : string) : option string :=
  match s with
  | EmptyString => None
  | String c r =>
      match strip_suffix r with
      | Some r' => Some (String c r')
      | None => if Ascii.eqb c "." then Some EmptyString else None
      end
  end.

Definition with_suffix (path suffix : string) : string :=
  default path (strip_suffix path) +:+ suffix.

Definition UnpicklingError : ExcClass :=
  Subclass "UnpicklingError" (Subclass "PickleError" Exception).

Definition load (path : string) (fs : gmap string string)
    : Outcome Model * gmap string string :=
  match fs !! path with
  | None =>
      (Raised (mkExn FileNotFoundError
                 ("[Errno 2] No such file or directory: '" +:+ path +:+ "'")), fs)
  | Some c =>
      if String.prefix "PK" c
      then (Returned (mkModel path c), fs)
      else (Raised (mkExn UnpicklingError "invalid load key"), fs)
  end.

Definition export_model (m : Model) (args : list PyVal)
    (kwargs : list (string * PyVal)) (fs : gmap string string)
    : Outcome PyVal * gmap string string :=
  match args, (list_to_map kwargs : gmap string PyVal) !! "format" with
  | [], Some (VStr "onnx") =>
      let f := with_suffix (pt_path m) ".onnx" in
      (Returned (VStr f), <[f := "ONNX " +:+ weights m]> fs)
  | _, _ =>
      (Raised (mkExn (Subclass "ValueError" Exception) "Invalid export format"), fs)
  end.

Definition library : Library Model := mkLibrary load export_model.

End Ref.

(** The same library when the user interrupts the load from the keyboard:
    the interpreter raises [KeyboardInterrupt] inside the call. *)
Definition keyboard_interrupt : Exn := mkExn KeyboardInterrupt EmptyString.

Definition interrupted_library : Library Ref.Model :=
  mkLibrary (λ _ fs, (Raised keyboard_interrupt, fs)) Ref.export_model.

(** The reference library with an export that fails with the given
    exception and writes nothing, as when a package or a file the export
    needs is missing. *)
Definition failing_export (e : Exn) : Library Ref.Model :=
  mkLibrary Ref.load (λ _ _ _ fs, (Raised e, fs)).

(** The reference library with a load that fails with the given exception. *)
Definition failing_load (e : Exn) : Library Ref.Model :=
  mkLibrary (λ _ fs, (Raised e, fs)) Ref.export_model.

(** The reference library with an export that writes its file and then
    fails, as when the check of the file written does not pass. *)
Definition export_fails_after_writing : Library Ref.Model :=
  mkLibrary Ref.load
    (λ m _ _ fs,
       (Raised (mkExn RuntimeError "ONNX check failed"),
        <[Ref.with_suffix (Ref.pt_path m) ".onnx" := "ONNX " +:+ Ref.weights m]> fs)).

(** An exception of a library-defined class whose text has a character
    outside ASCII (e with acute accent, in Latin-1). *)
Definition accented_error : Exn :=
  mkExn (Subclass "ModelError" Exception)
        ("mod" +:+ String "233"%char EmptyString +:+ "le invalide").

Definition no_onnx_module : Exn :=
  mkExn ModuleNotFoundError "No module named 'onnx'".

Definition no_such_dataset : Exn :=
  mkExn FileNotFoundError "[Errno 2] No such file or directory: 'data.yaml'".

(** ** Two concrete directories *)

Definition valid_dir : gmap string string := {[ "model.pt" := "PK-weights" ]}.

Definition junk_dir : gmap string string := {[ "model.pt" := "not an archive" ]}.

(** A directory in which files of both output names are already there. *)
Definition stale_dir : gmap string string :=
  {[ "model.pt" := "PK-weights";
     "model.onnx" := "stale";
     "stockmarket-pattern-detection-yolov8.onnx" := "older" ]}.

(** * Properties *)

(** ** Classes *)

Lemma issubclass_refl (c : ExcClass) : issubclass c c = true.
Proof.
  unfold issubclass. apply bool_decide_eq_true.
  destruct c; simpl; apply list_elem_of_here.
Qed.

Lemma mro_suffix (c d : ExcClass) : d ∈ mro c → mro d `suffix_of` mro c.
Proof.
  induction c as [ | | | | | | | | | n b IH]; simpl; intros Hd.
  10: {
    apply elem_of_cons in Hd as [-> | Hd]; [done |].
    apply suffix_cons_r. by apply IH. }
  all: repeat (apply elem_of_cons in Hd as [-> | Hd];
               [simpl; solve [ repeat first [ reflexivity | apply suffix_cons_r ] ] | ]).
  all: by apply elem_of_nil in Hd.
Qed.

Lemma issubclass_trans (c d e : ExcClass) :
  issubclass c d = true → issubclass d e = true → issubclass c e = true.
Proof.
  unfold issubclass. rewrite !bool_decide_eq_true. intros Hcd Hde.
  destruct (mro_suffix c d Hcd) as [k ->].
  apply elem_of_app. by right.
Qed.

Lemma isinstance_Exception_of (e : Exn) (c : ExcClass) :
  issubclass c Exception = true → isinstance e c = true →
  isinstance e Exception = true.
Proof. intros Hc He. unfold isinstance in *. by eapply issubclass_trans. Qed.

Section Properties.

Context {Model : Type} {enc : StdoutEncoding}.
Implicit Types (lib : Library Model) (w : World Model) (e : Exn)
  (fs : gmap string string) (m : Model) (v : PyVal).

(** ** What the statements print *)

Lemma print_ascii (s : string) w :
  ascii_only s = true →
  print s w = (Returned tt, mkWorld (stdout w ++ [s]) (files w) (calls w)).
Proof. intros H. unfold print. by rewrite (encodable_ascii s H). Qed.

Lemma print_encodable (s : string) w :
  encodable s = true →
  print s w = (Returned tt, mkWorld (stdout w ++ [s]) (files w) (calls w)).
Proof. intros H. unfold print. by rewrite H. Qed.

Lemma print_not_encodable (s : string) w :
  encodable s = false →
  print s w = (Raised (mkExn UnicodeEncodeError (encode_error s)), w).
Proof. intros H. unfold print. by rewrite H. Qed.

Lemma bind_print_ascii {B} (s : string) (k : unit → Py B) w :
  ascii_only s = true →
  @mbind (@Py Model) Py_bind unit B k (print s) w =
    k tt (mkWorld (stdout w ++ [s]) (files w) (calls w)).
Proof.
  intros H. unfold mbind, Py_bind. by rewrite (print_ascii s w H).
Qed.

Lemma bind_call_YOLO {B} lib (path : string) (k : Model → Py B) w :
  @mbind (@Py Model) Py_bind Model B k (call_YOLO lib path) w =
    match YOLO lib path (files w) with
    | (Returned m, fs') =>
        k m (mkWorld (stdout w) fs' (calls w ++ [CallYOLO path]))
    | (Raised e, fs') =>
        (Raised e, mkWorld (stdout w) fs' (calls w ++ [CallYOLO path]))
    end.
Proof.
  unfold mbind, Py_bind, call_YOLO.
  by destruct (YOLO lib path (files w)) as [[m | e] fs'].
Qed.

Lemma bind_call_export {B} lib m (args : list PyVal)
    (kwargs : list (string * PyVal)) (k : PyVal → Py B) w :
  @mbind (@Py Model) Py_bind PyVal B k (call_export lib m args kwargs) w =
    match export lib m args kwargs (files w) with
    | (Returned v, fs') =>
        k v (mkWorld (stdout w) fs' (calls w ++ [CallExport m args kwargs]))
    | (Raised e, fs') =>
        (Raised e,
         mkWorld (stdout w) fs' (calls w ++ [CallExport m args kwargs]))
    end.
Proof.
  unfold mbind, Py_bind, call_export.
  by destruct (export lib m args kwargs (files w)) as [[v | e] fs'].
Qed.

Ltac prints :=
  repeat (first
    [ rewrite bind_print_ascii by reflexivity
    | rewrite print_ascii by reflexivity ];
    cbn beta iota);
  cbn [stdout files calls fst snd].

Lemma on_FileNotFoundError_run e w :
  on_FileNotFoundError e w =
    (Returned tt,
     mkWorld (stdout w ++
                [nl +:+ "--- ERROR ---";
                 "File not found: model.pt";
                 "Please download 'model.pt' from the GitHub repository";
                 "and place it in the same folder as this script.";
                 "---"])
             (files w) (calls w)).
Proof.
  unfold on_FileNotFoundError. prints. by rewrite <- !app_assoc.
Qed.

Lemma on_ImportError_run e w :
  on_ImportError e w =
    (Returned tt,
     mkWorld (stdout w ++
                [nl +:+ "--- ERROR ---";
                 "The 'ultralytics' library is not found.";
                 "Please install it by running:";
                 "pip install ultralytics";
                 "---"])
             (files w) (calls w)).
Proof.
  unfold on_ImportError. prints. by rewrite <- !app_assoc.
Qed.

Lemma on_Exception_run e w :
  encodable (exc_str e) = true →
  on_Exception e w =
    (Returned tt,
     mkWorld (stdout w ++
                [nl +:+ "--- AN ERROR OCCURRED ---"; exc_str e; "---"])
             (files w) (calls w)).
Proof.
  intros H. unfold on_Exception. prints.
  unfold mbind, Py_bind. rewrite (print_encodable _ _ H). prints.
  by rewrite <- !app_assoc.
Qed.

(** The text of the exception is not taken by standard output: [print(e)]
    raises inside the clause, after the header. *)
Lemma on_Exception_raises e w :
  encodable (exc_str e) = false →
  on_Exception e w =
    (Raised (mkExn UnicodeEncodeError (encode_error (exc_str e))),
     mkWorld (stdout w ++ [nl +:+ "--- AN ERROR OCCURRED ---"])
             (files w) (calls w)).
Proof.
  intros H. unfold on_Exception. prints.
  unfold mbind, Py_bind. by rewrite (print_not_encodable _ _ H).
Qed.

(** ** Which clause runs *)

Lemma dispatch_FileNotFoundError e :
  isinstance e FileNotFoundError = true →
  dispatch (Model:=Model) handlers e = on_FileNotFoundError e.
Proof. intros H. simpl. by rewrite H. Qed.

Lemma dispatch_ImportError e :
  isinstance e FileNotFoundError = false →
  isinstance e ImportError = true →
  dispatch (Model:=Model) handlers e = on_ImportError e.
Proof. intros H1 H2. simpl. by rewrite H1, H2. Qed.

Lemma dispatch_Exception e :
  isinstance e FileNotFoundError = false →
  isinstance e ImportError = false →
  isinstance e Exception = true →
  dispatch (Model:=Model) handlers e = on_Exception e.
Proof. intros H1 H2 H3. simpl. by rewrite H1, H2, H3. Qed.

Lemma dispatch_uncaught e :
  isinstance e Exception = false →
  dispatch (Model:=Model) handlers e = raise e.
Proof.
  intros H. simpl.
  destruct (isinstance e FileNotFoundError) eqn:H1.
  { apply (isinstance_Exception_of e FileNotFoundError) in H1; [congruence | done]. }
  destruct (isinstance e ImportError) eqn:H2.
  { apply (isinstance_Exception_of e ImportError) in H2; [congruence | done]. }
  by rewrite H.
Qed.

Lemma on_Exception_keeps e w :
  files (snd (on_Exception e w)) = files w ∧
  calls (snd (on_Exception e w)) = calls w.
Proof.
  destruct (encodable (exc_str e)) eqn:H.
  - by rewrite (on_Exception_run _ _ H).
  - by rewrite (on_Exception_raises _ _ H).
Qed.

(** No clause calls the library or touches the directory. *)
Lemma handlers_keep (c : ExcClass) (h : Exn → Py unit) e w :
  (c, h) ∈ handlers (Model:=Model) →
  files (snd (h e w)) = files w ∧ calls (snd (h e w)) = calls w.
Proof.
  unfold handlers. intros Hin.
  apply elem_of_cons in Hin as [[= -> ->] | Hin];
    [by rewrite on_FileNotFoundError_run |].
  apply elem_of_cons in Hin as [[= -> ->] | Hin];
    [by rewrite on_ImportError_run |].
  apply elem_of_cons in Hin as [[= -> ->] | Hin];
    [apply on_Exception_keeps |].
  by apply elem_of_nil in Hin.
Qed.

(** An instance of [Exception] finds its clause. *)
Lemma dispatch_caught e :
  isinstance e Exception = true →
  ∃ c h, (c, h) ∈ handlers (Model:=Model) ∧ isinstance e c = true ∧
         dispatch handlers e = h e.
Proof.
  intros H.
  destruct (isinstance e FileNotFoundError) eqn:H1.
  { exists FileNotFoundError, on_FileNotFoundError.
    split; [unfold handlers; set_solver |]. split; [done |].
    by apply dispatch_FileNotFoundError. }
  destruct (isinstance e ImportError) eqn:H2.
  { exists ImportError, on_ImportError.
    split; [unfold handlers; set_solver |]. split; [done |].
    by apply dispatch_ImportError. }
  exists Exception, on_Exception.
  split; [unfold handlers; set_solver |]. split; [done |].
  by apply dispatch_Exception.
Qed.

(** ** The three ways through the body of the [try] *)

Lemma try_body_load_raises lib w e fs' :
  YOLO lib pytorch_model_file (files w) = (Raised e, fs') →
  try_body lib w =
    (Raised e,
     mkWorld (stdout w ++ ["Loading PyTorch model: model.pt..."]) fs'
             (calls w ++ [CallYOLO pytorch_model_file])).
Proof.
  intros H. unfold try_body. prints.
  rewrite bind_call_YOLO. cbn [stdout files calls]. by rewrite H.
Qed.

Lemma try_body_export_raises lib w m fs1 e fs2 :
  YOLO lib pytorch_model_file (files w) = (Returned m, fs1) →
  export lib m [] export_kwargs fs1 = (Raised e, fs2) →
  try_body lib w =
    (Raised e,
     mkWorld (stdout w ++
                ["Loading PyTorch model: model.pt...";
                 "Model loaded successfully.";
                 "Exporting model to ONNX: stockmarket-pattern-detection-yolov8.onnx..."])
             fs2
             (calls w ++ [CallYOLO pytorch_model_file;
                          CallExport m [] export_kwargs])).
Proof.
  intros H1 H2. unfold try_body. prints.
  rewrite bind_call_YOLO. cbn [stdout files calls]. rewrite H1. prints.
  rewrite bind_call_export. cbn [stdout files calls]. rewrite H2. prints.
  by rewrite <- !app_assoc.
Qed.

Lemma try_body_returns lib w m fs1 v fs2 :
  YOLO lib pytorch_model_file (files w) = (Returned m, fs1) →
  export lib m [] export_kwargs fs1 = (Returned v, fs2) →
  try_body lib w =
    (Returned tt,
     mkWorld (stdout w ++
                ["Loading PyTorch model: model.pt...";
                 "Model loaded successfully.";
                 "Exporting model to ONNX: stockmarket-pattern-detection-yolov8.onnx...";
                 nl +:+ "---";
                 "Success! 'stockmarket-pattern-detection-yolov8.onnx' has been created.";
                 "You can now run your MATLAB backtester.";
                 "---"])
             fs2
             (calls w ++ [CallYOLO pytorch_model_file;
                          CallExport m [] export_kwargs])).
Proof.
  intros H1 H2. unfold try_body. prints.
  rewrite bind_call_YOLO. cbn [stdout files calls]. rewrite H1. prints.
  rewrite bind_call_export. cbn [stdout files calls]. rewrite H2. prints.
  by rewrite <- !app_assoc.
Qed.

(** The body has no other way through. *)
Lemma try_body_path lib w : body_path lib w (try_body lib w).
Proof.
  destruct (YOLO lib pytorch_model_file (files w)) as [[m | e] fs1] eqn:H1.
  - destruct (export lib m [] export_kwargs fs1) as [[v | e] fs2] eqn:H2.
    + rewrite (try_body_returns _ _ _ _ _ _ H1 H2). by eapply path_returns.
    + rewrite (try_body_export_raises _ _ _ _ _ _ H1 H2). by eapply path_export_raises.
  - rewrite (try_body_load_raises _ _ _ _ H1). by apply path_load_raises.
Qed.

Lemma run_imported lib fs :
  run (mkEnv (Some lib) fs) = try_statement lib (mkWorld [] fs []).
Proof. reflexivity. Qed.

Lemma try_statement_raised lib w e w' :
  try_body lib w = (Raised e, w') →
  try_statement lib w = dispatch handlers e w'.
Proof. intros H. unfold try_statement, try_except. by rewrite H. Qed.

Lemma try_statement_returned lib w w' :
  try_body lib w = (Returned tt, w') →
  try_statement lib w = (Returned tt, w').
Proof. intros H. unfold try_statement, try_except. by rewrite H. Qed.


Lemma dispatch_keeps e w :
  files (snd (dispatch handlers e w)) = files w ∧
  calls (snd (dispatch handlers e w)) = calls w.
Proof.
  unfold handlers. cbn [dispatch].
  destruct (isinstance e FileNotFoundError);
    [by rewrite on_FileNotFoundError_run |].
  destruct (isinstance e ImportError); [by rewrite on_ImportError_run |].
  destruct (isinstance e Exception); [apply on_Exception_keeps | done].
Qed.

(** The [try] statement makes the library calls of its body and no other,
    and leaves the directory as the body left it. *)
Lemma try_statement_keeps lib w :
  files (snd (try_statement lib w)) = files (snd (try_body lib w)) ∧
  calls (snd (try_statement lib w)) = calls (snd (try_body lib w)).
Proof.
  unfold try_statement, try_except.
  destruct (try_body lib w) as [[[] | e] w']; [done |].
  apply dispatch_keeps.
Qed.

(** ** The claims *)

(** C1, on the code: with [ultralytics] absent, line 1 raises
    [ModuleNotFoundError] before the [try] statement is entered.  Whatever
    the working directory holds, the run ends with that exception
    unhandled, the script has printed nothing, and in particular not the
    line [pip install ultralytics]. *)
Theorem absent_library_prints_nothing fs :
  run (Model:=Model) (mkEnv None fs) =
    (Raised (mkExn ModuleNotFoundError "No module named 'ultralytics'"),
     mkWorld [] fs []) ∧
  "pip install ultralytics" ∉ stdout (snd (run (Model:=Model) (mkEnv None fs))).
Proof. split; [reflexivity |]. simpl. apply not_elem_of_nil. Qed.

(** C3: when the load of [model.pt] raises [FileNotFoundError] (or a
    subclass of it), the script prints the loading line and the five lines
    of the missing-input diagnostic, returns normally, and creates no
    file: [export] is never called and the directory after the run is the
    one the failed load left. *)
Theorem missing_checkpoint_diagnostic lib fs e fs' :
  YOLO lib pytorch_model_file fs = (Raised e, fs') →
  isinstance e FileNotFoundError = true →
  run (mkEnv (Some lib) fs) =
    (Returned tt,
     mkWorld ["Loading PyTorch model: model.pt...";
              nl +:+ "--- ERROR ---";
              "File not found: model.pt";
              "Please download 'model.pt' from the GitHub repository";
              "and place it in the same folder as this script.";
              "---"]
             fs'
             [CallYOLO "model.pt"]).
Proof.
  intros Hload He. rewrite run_imported.
  rewrite (try_statement_raised _ _ _ _
               (try_body_load_raises lib (mkWorld [] fs []) _ _ Hload)).
  by rewrite (dispatch_FileNotFoundError _ He), on_FileNotFoundError_run.
Qed.

(** C4, amended: when the load or the export raises an instance of
    [Exception] that is an instance of neither [FileNotFoundError] nor
    [ImportError] and whose text standard output can encode, the script
    prints, after its progress lines, the header
    [--- AN ERROR OCCURRED ---], the text of the exception and [---],
    and returns normally.  It makes no further library call and writes no
    file of its own: the directory after the run is exactly the one the
    failing call left, so unchanged when that call wrote nothing. *)
Theorem unclassified_error_diagnostic lib fs e :
  isinstance e Exception = true →
  isinstance e FileNotFoundError = false →
  isinstance e ImportError = false →
  encodable (exc_str e) = true →
  (∀ fs',
     YOLO lib pytorch_model_file fs = (Raised e, fs') →
     run (mkEnv (Some lib) fs) =
       (Returned tt,
        mkWorld ["Loading PyTorch model: model.pt...";
                 nl +:+ "--- AN ERROR OCCURRED ---";
                 exc_str e;
                 "---"]
                fs'
                [CallYOLO "model.pt"])) ∧
  (∀ m fs1 fs2,
     YOLO lib pytorch_model_file fs = (Returned m, fs1) →
     export lib m [] export_kwargs fs1 = (Raised e, fs2) →
     run (mkEnv (Some lib) fs) =
       (Returned tt,
        mkWorld ["Loading PyTorch model: model.pt...";
                 "Model loaded successfully.";
                 "Exporting model to ONNX: stockmarket-pattern-detection-yolov8.onnx...";
                 nl +:+ "--- AN ERROR OCCURRED ---";
                 exc_str e;
                 "---"]
                fs2
                [CallYOLO "model.pt";
                 CallExport m [] [("format", VStr "onnx"); ("imgsz", VInt 640%Z)]])).
Proof.
  intros HE HF HI Henc. split.
  - intros fs' Hload. rewrite run_imported.
    rewrite (try_statement_raised _ _ _ _
               (try_body_load_raises lib (mkWorld [] fs []) _ _ Hload)).
    by rewrite (dispatch_Exception _ HF HI HE), (on_Exception_run _ _ Henc).
  - intros m fs1 fs2 Hload Hexp. rewrite run_imported.
    rewrite (try_statement_raised _ _ _ _
               (try_body_export_raises lib (mkWorld [] fs []) _ _ _ _ Hload Hexp)).
    by rewrite (dispatch_Exception _ HF HI HE), (on_Exception_run _ _ Henc).
Qed.

(** The run of a library that loads and exports. *)
Lemma run_returns lib fs m fs1 v fs2 :
  YOLO lib pytorch_model_file fs = (Returned m, fs1) →
  export lib m [] export_kwargs fs1 = (Returned v, fs2) →
  run (mkEnv (Some lib) fs) =
    (Returned tt,
     mkWorld ["Loading PyTorch model: model.pt...";
              "Model loaded successfully.";
              "Exporting model to ONNX: stockmarket-pattern-detection-yolov8.onnx...";
              nl +:+ "---";
              "Success! 'stockmarket-pattern-detection-yolov8.onnx' has been created.";
              "You can now run your MATLAB backtester.";
              "---"]
             fs2
             [CallYOLO "model.pt"; CallExport m [] export_kwargs]).
Proof.
  intros H1 H2. rewrite run_imported.
  by rewrite (try_statement_returned _ _ _
                (try_body_returns lib (mkWorld [] fs []) _ _ _ _ H1 H2)).
Qed.

(** What a run that reached the export step is: the library's [export]
    applied to the model the load returned, with no positional argument and
    the keyword arguments [format='onnx'], [imgsz=640], on the directory
    the load left.  The directory after the run is the one that call left;
    the run returns when the call returns, and otherwise is the clause for
    the exception the call raised, run after the three progress lines. *)
Lemma run_export_applied lib fs m fs1 :
  YOLO lib pytorch_model_file fs = (Returned m, fs1) →
  let x := export lib m [] [("format", VStr "onnx"); ("imgsz", VInt 640%Z)] fs1 in
  let trace := [CallYOLO "model.pt";
                CallExport m [] [("format", VStr "onnx"); ("imgsz", VInt 640%Z)]] in
  calls (snd (run (mkEnv (Some lib) fs))) = trace ∧
  files (snd (run (mkEnv (Some lib) fs))) = snd x ∧
  (∀ v, fst x = Returned v → fst (run (mkEnv (Some lib) fs)) = Returned tt) ∧
  (∀ e, fst x = Raised e →
        run (mkEnv (Some lib) fs) =
          dispatch handlers e
            (mkWorld ["Loading PyTorch model: model.pt...";
                      "Model loaded successfully.";
                      "Exporting model to ONNX: stockmarket-pattern-detection-yolov8.onnx..."]
                     (snd x) trace)).
Proof.
  intros H1. cbn zeta.
  change [("format", VStr "onnx"); ("imgsz", VInt 640%Z)] with export_kwargs.
  destruct (export lib m [] export_kwargs fs1) as [[v | e] fs2] eqn:H2;
    cbn [fst snd].
  - rewrite (run_returns _ _ _ _ _ _ H1 H2). by repeat split.
  - pose proof (try_body_export_raises lib (mkWorld [] fs []) _ _ _ _ H1 H2)
      as Hbody.
    rewrite run_imported.
    rewrite (proj1 (try_statement_keeps _ _)), (proj2 (try_statement_keeps _ _)).
    rewrite (try_statement_raised _ _ _ _ Hbody), Hbody.
    split; [done |]. split; [done |]. split; [discriminate |].
    by intros ? [= <-].
Qed.

(** C5: every call of [export] in the trace of a run has no positional
    argument and exactly the keyword arguments [format='onnx'] and
    [imgsz=640]; no file name is among them.  And the trace tells what
    happened: in a run that reached the export step, the directory after
    the run is the one the library's [export], applied to the model the
    load returned with these arguments on the directory the load left,
    gave back; the run returns when that call returns, and is the clause
    for its exception when it raises. *)
Theorem export_call_arguments (env : Env Model) :
  (∀ m args kwargs,
     CallExport m args kwargs ∈ calls (snd (run env)) →
     args = [] ∧ kwargs = [("format", VStr "onnx"); ("imgsz", VInt 640%Z)]) ∧
  (∀ lib m fs1,
     ultralytics env = Some lib →
     YOLO lib pytorch_model_file (cwd env) = (Returned m, fs1) →
     let x := export lib m [] [("format", VStr "onnx"); ("imgsz", VInt 640%Z)] fs1 in
     files (snd (run env)) = snd x ∧
     (∀ v, fst x = Returned v → fst (run env) = Returned tt) ∧
     (∀ e, fst x = Raised e →
           run env =
             dispatch handlers e
               (mkWorld ["Loading PyTorch model: model.pt...";
                         "Model loaded successfully.";
                         "Exporting model to ONNX: stockmarket-pattern-detection-yolov8.onnx..."]
                        (snd x)
                        [CallYOLO "model.pt";
                         CallExport m []
                           [("format", VStr "onnx"); ("imgsz", VInt 640%Z)]]))).
Proof.
  split.
  - intros m args kwargs Hin. destruct env as [[lib |] fs].
    + rewrite run_imported in Hin.
      rewrite (proj2 (try_statement_keeps _ _)) in Hin.
      destruct (try_body_path lib (mkWorld [] fs [])); simpl in Hin.
      * apply list_elem_of_singleton in Hin. discriminate.
      * apply elem_of_cons in Hin as [Hin | Hin]; [discriminate |].
        apply list_elem_of_singleton in Hin. by injection Hin as -> -> ->.
      * apply elem_of_cons in Hin as [Hin | Hin]; [discriminate |].
        apply list_elem_of_singleton in Hin. by injection Hin as -> -> ->.
    + simpl in Hin. by apply elem_of_nil in Hin.
  - intros lib m fs1 Hlib H1. destruct env as [o fs]. simpl in Hlib, H1.
    subst o. cbn zeta.
    pose proof (run_export_applied lib fs m fs1 H1) as (_ & Hf & Hv & He).
    by repeat split.
Qed.

(** The shape of the trace of a run, and where the directory comes from
    when the load raises. *)
Lemma run_trace_shape (env : Env Model) :
  let trace : list (Call Model) := calls (snd (run env)) in
  (List.length trace ≤ 2)%nat ∧
  (∀ i m a k,
     trace !! i = Some (CallExport m a k) →
     i = 1 ∧ trace !! 0 = Some (CallYOLO "model.pt") ∧
     ∃ lib, ultralytics env = Some lib ∧
            fst (YOLO lib pytorch_model_file (cwd env)) = Returned m) ∧
  (∀ lib,
     ultralytics env = Some lib →
     trace !! 0 = Some (CallYOLO "model.pt") ∧
     (∀ m,
        fst (YOLO lib pytorch_model_file (cwd env)) = Returned m →
        trace = [CallYOLO "model.pt"; CallExport m [] export_kwargs]) ∧
     (∀ e,
        fst (YOLO lib pytorch_model_file (cwd env)) = Raised e →
        trace = [CallYOLO "model.pt"]) ∧
     (∀ e fs',
        YOLO lib pytorch_model_file (cwd env) = (Raised e, fs') →
        files (snd (run env)) = fs')).
Proof.
  destruct env as [[lib |] fs]; simpl.
  2: { split; [lia |]. split; [| discriminate].
       intros i m a k Hi. by rewrite lookup_nil in Hi. }
  change (convert_to_onnx (mkEnv (Some lib) fs) (mkWorld [] fs []))
    with (run (mkEnv (Some lib) fs)).
  rewrite run_imported.
  rewrite (proj1 (try_statement_keeps _ _)), (proj2 (try_statement_keeps _ _)).
  destruct (try_body_path lib (mkWorld [] fs [])) as
    [e fs' H1 | m fs1 e fs2 H1 H2 | m fs1 v fs2 H1 H2]; simpl in *.
  - split; [lia |]. split.
    + intros [| [| i]] m a k Hi; simpl in Hi; discriminate.
    + intros ? [= <-]. rewrite H1. simpl.
      split; [done |]. split; [done |]. split; [done |].
      by intros ? ? [= _ <-].
  - split; [lia |]. split.
    + intros [| [| i]] m' a k Hi; simpl in Hi; try discriminate.
      injection Hi as -> <- <-. split; [done |]. split; [done |].
      exists lib. by rewrite H1.
    + intros ? [= <-]. rewrite H1. simpl.
      split; [done |]. split; [by intros ? [= ->] |]. split; [done |].
      discriminate.
  - split; [lia |]. split.
    + intros [| [| i]] m' a k Hi; simpl in Hi; try discriminate.
      injection Hi as -> <- <-. split; [done |]. split; [done |].
      exists lib. by rewrite H1.
    + intros ? [= <-]. rewrite H1. simpl.
      split; [done |]. split; [by intros ? [= ->] |]. split; [done |].
      discriminate.
Qed.

(** C7: in every run the library calls are at most two.  A call of
    [export] occurs only as the second call, after the load of [model.pt]
    as the first, and on the model that load returned.  In a run that got
    past the import the first call is the load, applied to the directory
    the run started in.  When the load raises, the trace is the load alone
    and the directory is the one the load left: no export happened.  When
    the load returns, the trace is exactly the load followed by one
    export, and that export did run: the directory after the run is the
    one the library's [export] gave back on the directory the load left,
    and the run returns when it returns and is the clause for its
    exception when it raises.  After that the run is over. *)
Theorem load_precedes_export (env : Env Model) :
  let trace : list (Call Model) := calls (snd (run env)) in
  (List.length trace ≤ 2)%nat ∧
  (∀ i m a k,
     trace !! i = Some (CallExport m a k) →
     i = 1 ∧ trace !! 0 = Some (CallYOLO "model.pt") ∧
     ∃ lib, ultralytics env = Some lib ∧
            fst (YOLO lib pytorch_model_file (cwd env)) = Returned m) ∧
  (∀ lib,
     ultralytics env = Some lib →
     trace !! 0 = Some (CallYOLO "model.pt") ∧
     (∀ m,
        fst (YOLO lib pytorch_model_file (cwd env)) = Returned m →
        trace = [CallYOLO "model.pt"; CallExport m [] export_kwargs]) ∧
     (∀ e,
        fst (YOLO lib pytorch_model_file (cwd env)) = Raised e →
        trace = [CallYOLO "model.pt"]) ∧
     (∀ e fs',
        YOLO lib pytorch_model_file (cwd env) = (Raised e, fs') →
        files (snd (run env)) = fs') ∧
     (∀ m fs1,
        YOLO lib pytorch_model_file (cwd env) = (Returned m, fs1) →
        let x := export lib m [] export_kwargs fs1 in
        files (snd (run env)) = snd x ∧
        (∀ v, fst x = Returned v → fst (run env) = Returned tt) ∧
        (∀ e, fst x = Raised e →
              run env =
                dispatch handlers e
                  (mkWorld ["Loading PyTorch model: model.pt...";
                            "Model loaded successfully.";
                            "Exporting model to ONNX: stockmarket-pattern-detection-yolov8.onnx..."]
                           (snd x)
                           [CallYOLO "model.pt";
                            CallExport m [] export_kwargs])))).
Proof.
  cbn zeta.
  destruct (run_trace_shape env) as (Hlen & Hexport & Hload).
  split; [exact Hlen |]. split; [exact Hexport |].
  intros lib Hlib. destruct (Hload lib Hlib) as (H0 & Hret & Hraise & Hfiles).
  split; [exact H0 |]. split; [exact Hret |]. split; [exact Hraise |].
  split; [exact Hfiles |].
  intros m fs1 H1. destruct env as [o fs]. simpl in Hlib, H1. subst o.
  cbn zeta.
  pose proof (run_export_applied lib fs m fs1 H1) as (_ & Hf & Hv & He).
  by repeat split.
Qed.

(** C9, amended: an instance of [Exception] raised in the body of the
    [try] is always caught: one of the three clauses matches it and the
    run is that clause run on the exception.  The clause returns, with
    exit status 0, when it is one of the first two or when standard output
    can encode the text of the exception; when it is the third and the
    text cannot be encoded, [print(e)] raises [UnicodeEncodeError] inside
    the clause and the run ends with that exception unhandled, with exit
    status 1. *)
Theorem ordinary_exceptions_are_handled lib fs e w' :
  try_body lib (mkWorld [] fs []) = (Raised e, w') →
  isinstance e Exception = true →
  let r := run (mkEnv (Some lib) fs) in
  (∃ c h, (c, h) ∈ handlers ∧ isinstance e c = true ∧ r = h e w') ∧
  (isinstance e FileNotFoundError = true ∨ isinstance e ImportError = true ∨
   encodable (exc_str e) = true →
   fst r = Returned tt ∧ exit_status r = Some 0%Z) ∧
  (isinstance e FileNotFoundError = false →
   isinstance e ImportError = false →
   encodable (exc_str e) = false →
   fst r = Raised (mkExn UnicodeEncodeError (encode_error (exc_str e))) ∧
   exit_status r = Some 1%Z).
Proof.
  intros Hbody HE. cbn zeta. rewrite run_imported.
  rewrite (try_statement_raised _ _ _ _ Hbody).
  split; [| split].
  - destruct (dispatch_caught e HE) as (c & h & Hin & Hc & ->).
    by exists c, h.
  - intros Hor.
    destruct (isinstance e FileNotFoundError) eqn:HF.
    { by rewrite (dispatch_FileNotFoundError _ HF), on_FileNotFoundError_run. }
    destruct (isinstance e ImportError) eqn:HI.
    { by rewrite (dispatch_ImportError _ HF HI), on_ImportError_run. }
    destruct Hor as [? | [? | Henc]]; [discriminate | discriminate |].
    by rewrite (dispatch_Exception _ HF HI HE), (on_Exception_run _ _ Henc).
  - intros HF HI Henc.
    by rewrite (dispatch_Exception _ HF HI HE), (on_Exception_raises _ _ Henc).
Qed.

(** C10: in every run in which the load and the export return, the script
    prints the same seven lines, and the banner names the constant
    [stockmarket-pattern-detection-yolov8.onnx]: the lines mention neither
    the value the export returned nor the directory it left. *)
Theorem success_banner_is_constant lib fs m fs1 v fs2 :
  YOLO lib pytorch_model_file fs = (Returned m, fs1) →
  export lib m [] export_kwargs fs1 = (Returned v, fs2) →
  stdout (snd (run (mkEnv (Some lib) fs))) =
    ["Loading PyTorch model: model.pt...";
     "Model loaded successfully.";
     "Exporting model to ONNX: stockmarket-pattern-detection-yolov8.onnx...";
     nl +:+ "---";
     "Success! 'stockmarket-pattern-detection-yolov8.onnx' has been created.";
     "You can now run your MATLAB backtester.";
     "---"].
Proof. intros H1 H2. by rewrite (run_returns _ _ _ _ _ _ H1 H2). Qed.

End Properties.

(** ** Runs of the reference library *)

Section ReferenceRuns.

Context {enc : StdoutEncoding}.

(** The reference library loads a checkpoint that is an archive, wherever
    else the directory holds, and leaves the directory as it is. *)
Lemma Ref_load_valid (fs : gmap string string) (c : string) :
  fs !! "model.pt" = Some c →
  String.prefix "PK" c = true →
  YOLO Ref.library pytorch_model_file fs
    = (Returned (Ref.mkModel "model.pt" c), fs).
Proof.
  intros Hc Hpk. cbn [YOLO Ref.library]. unfold Ref.load, pytorch_model_file.
  by rewrite Hc, Hpk.
Qed.

(** Its export writes [model.onnx] whatever is there already. *)
Lemma Ref_export_onnx (c : string) (fs : gmap string string) :
  export Ref.library (Ref.mkModel "model.pt" c) [] export_kwargs fs
    = (Returned (VStr "model.onnx"), <["model.onnx" := "ONNX " +:+ c]> fs).
Proof. reflexivity. Qed.

(** C2, on the code: a run of the reference library on a directory that
    holds only a valid [model.pt].  The run returns normally and prints the
    banner that names [stockmarket-pattern-detection-yolov8.onnx], but the
    script passed that name to nothing: the one file created is
    [model.onnx], and no file of the name in the banner exists. *)
Theorem banner_names_a_file_not_written :
  let r := run (mkEnv (Some Ref.library) valid_dir) in
  fst r = Returned tt ∧
  "Success! 'stockmarket-pattern-detection-yolov8.onnx' has been created."
    ∈ stdout (snd r) ∧
  files (snd r) = <["model.onnx" := "ONNX PK-weights"]> valid_dir ∧
  files (snd r) !! onnx_model_file = None.
Proof.
  cbn zeta.
  rewrite (run_returns _ _ _ _ _ _
             (Ref_load_valid valid_dir "PK-weights" eq_refl eq_refl)
             (Ref_export_onnx "PK-weights" valid_dir)).
  cbn [fst snd stdout files calls].
  split; [reflexivity |]. split; [| split; reflexivity].
  do 4 apply list_elem_of_further. apply list_elem_of_here.
Qed.

(** C6, on the code: with [ultralytics] absent the run ends with the
    [ModuleNotFoundError] of line 1 unhandled, so the interpreter exits
    with status 1, while a successful run exits with status 0. *)
Theorem absent_library_exit_status (fs : gmap string string) :
  exit_status (run (Model:=Ref.Model) (mkEnv None fs)) = Some 1%Z ∧
  exit_status (run (mkEnv (Some Ref.library) valid_dir)) = Some 0%Z.
Proof.
  split; [reflexivity |].
  by rewrite (run_returns _ _ _ _ _ _
                (Ref_load_valid valid_dir "PK-weights" eq_refl eq_refl)
                (Ref_export_onnx "PK-weights" valid_dir)).
Qed.

(** C8: two runs in succession, the second in the directory the first
    left, with the library as the reference library has it.  Whatever
    else the directory holds at the start, files of the output names
    included, when [model.pt] is a model archive both runs return
    normally with exit status 0 and print the seven lines of the success
    path; the first run leaves [model.onnx] written over whatever was
    there, the second run loads the same checkpoint, calls the export
    again and writes the file again, and ends in the directory it started
    in. *)
Theorem rerun_succeeds (fs : gmap string string) (c : string) :
  fs !! "model.pt" = Some c →
  String.prefix "PK" c = true →
  let first := run (mkEnv (Some Ref.library) fs) in
  let second := run (mkEnv (Some Ref.library) (files (snd first))) in
  fst first = Returned tt ∧ fst second = Returned tt ∧
  exit_status first = Some 0%Z ∧ exit_status second = Some 0%Z ∧
  stdout (snd first) =
    ["Loading PyTorch model: model.pt...";
     "Model loaded successfully.";
     "Exporting model to ONNX: stockmarket-pattern-detection-yolov8.onnx...";
     nl +:+ "---";
     "Success! 'stockmarket-pattern-detection-yolov8.onnx' has been created.";
     "You can now run your MATLAB backtester.";
     "---"] ∧
  stdout (snd second) = stdout (snd first) ∧
  files (snd first) = <["model.onnx" := "ONNX " +:+ c]> fs ∧
  files (snd second) = files (snd first) ∧
  calls (snd second) =
    [CallYOLO "model.pt";
     CallExport (Ref.mkModel "model.pt" c) [] export_kwargs].
Proof.
  intros Hc Hpk. cbn zeta.
  rewrite (run_returns _ _ _ _ _ _ (Ref_load_valid fs c Hc Hpk)
             (Ref_export_onnx c fs)).
  cbn [fst snd stdout files calls].
  assert (Hc2 : (<["model.onnx" := "ONNX " +:+ c]> fs) !! "model.pt" = Some c).
  { rewrite lookup_insert_ne; [exact Hc | discriminate]. }
  rewrite (run_returns _ _ _ _ _ _ (Ref_load_valid _ c Hc2 Hpk)
             (Ref_export_onnx c _)).
  cbn [fst snd stdout files calls].
  rewrite insert_insert_eq. by repeat split.
Qed.

End ReferenceRuns.

(** ** Concrete runs *)

(** C4 as stated fails, in three ways.  With [model.pt] there: the load
    raises [KeyboardInterrupt], an exception that is an instance of neither
    [FileNotFoundError] nor [ImportError], and the run ends with it
    unhandled, having printed the loading line only.  The export raises an
    instance of [Exception] whose text ASCII standard output cannot encode:
    the header is printed, then [print(e)] raises, and neither the text
    nor [---] is printed.  The export writes [model.onnx] and then raises:
    the diagnostic is printed and an output file has been created. *)
Lemma unclassified_claim_fails :
  (let r := run (mkEnv (Some interrupted_library) valid_dir) in
   valid_dir !! "model.pt" = Some "PK-weights" ∧
   YOLO interrupted_library pytorch_model_file valid_dir
     = (Raised keyboard_interrupt, valid_dir) ∧
   isinstance keyboard_interrupt FileNotFoundError = false ∧
   isinstance keyboard_interrupt ImportError = false ∧
   r = (Raised keyboard_interrupt,
        mkWorld ["Loading PyTorch model: model.pt..."] valid_dir
                [CallYOLO "model.pt"]) ∧
   (nl +:+ "--- AN ERROR OCCURRED ---") ∉ stdout (snd r)) ∧
  (let lib := failing_export accented_error in
   let m := Ref.mkModel "model.pt" "PK-weights" in
   let r := run (enc:=ascii_stdout) (mkEnv (Some lib) valid_dir) in
   YOLO lib pytorch_model_file valid_dir = (Returned m, valid_dir) ∧
   export lib m [] export_kwargs valid_dir = (Raised accented_error, valid_dir) ∧
   isinstance accented_error Exception = true ∧
   isinstance accented_error FileNotFoundError = false ∧
   isinstance accented_error ImportError = false ∧
   r = (Raised (mkExn UnicodeEncodeError
                  "'ascii' codec can't encode characters: ordinal not in range(128)"),
        mkWorld ["Loading PyTorch model: model.pt...";
                 "Model loaded successfully.";
                 "Exporting model to ONNX: stockmarket-pattern-detection-yolov8.onnx...";
                 nl +:+ "--- AN ERROR OCCURRED ---"]
                valid_dir
                [CallYOLO "model.pt"; CallExport m [] export_kwargs]) ∧
   exc_str accented_error ∉ stdout (snd r)) ∧
  (let lib := export_fails_after_writing in
   let m := Ref.mkModel "model.pt" "PK-weights" in
   let e := mkExn RuntimeError "ONNX check failed" in
   let r := run (mkEnv (Some lib) valid_dir) in
   YOLO lib pytorch_model_file valid_dir = (Returned m, valid_dir) ∧
   fst (export lib m [] export_kwargs valid_dir) = Raised e ∧
   isinstance e Exception = true ∧
   isinstance e FileNotFoundError = false ∧
   isinstance e ImportError = false ∧
   fst r = Returned tt ∧
   stdout (snd r) =
     ["Loading PyTorch model: model.pt...";
      "Model loaded successfully.";
      "Exporting model to ONNX: stockmarket-pattern-detection-yolov8.onnx...";
      nl +:+ "--- AN ERROR OCCURRED ---";
      "ONNX check failed";
      "---"] ∧
   valid_dir !! "model.onnx" = None ∧
   files (snd r) !! "model.onnx" = Some "ONNX PK-weights").
Proof.
  split; [| split].
  - repeat split; try reflexivity.
    vm_compute. intros H. apply list_elem_of_singleton in H. discriminate.
  - repeat split; try reflexivity.
    vm_compute. intros H.
    repeat (apply elem_of_cons in H as [H | H]; [discriminate |]).
    by apply elem_of_nil in H.
  - repeat split; reflexivity.
Qed.

(** C9 as stated fails: the load raises an instance of [Exception] whose
    text ASCII standard output cannot encode.  The third clause catches
    it and prints its header, then [print(e)] raises [UnicodeEncodeError]
    inside the clause: the run does not return normally, it ends with that
    exception unhandled and exit status 1. *)
Lemma unencodable_message_leaves_the_script :
  let lib := failing_load accented_error in
  let r := run (enc:=ascii_stdout) (mkEnv (Some lib) valid_dir) in
  try_body (enc:=ascii_stdout) lib (mkWorld [] valid_dir [])
    = (Raised accented_error,
       mkWorld ["Loading PyTorch model: model.pt..."] valid_dir
               [CallYOLO "model.pt"]) ∧
  isinstance accented_error Exception = true ∧
  r = (Raised (mkExn UnicodeEncodeError
                 "'ascii' codec can't encode characters: ordinal not in range(128)"),
       mkWorld ["Loading PyTorch model: model.pt...";
                nl +:+ "--- AN ERROR OCCURRED ---"]
               valid_dir
               [CallYOLO "model.pt"]) ∧
  fst r ≠ Returned tt ∧
  exit_status r = Some 1%Z.
Proof. repeat split; try reflexivity. discriminate. Qed.

Lemma missing_checkpoint_diagnostic_witness :
  let e := mkExn FileNotFoundError "[Errno 2] No such file or directory: 'model.pt'" in
  YOLO Ref.library pytorch_model_file ∅ = (Raised e, ∅) ∧
  isinstance e FileNotFoundError = true ∧
  run (mkEnv (Some Ref.library) ∅) =
    (Returned tt,
     mkWorld ["Loading PyTorch model: model.pt...";
              nl +:+ "--- ERROR ---";
              "File not found: model.pt";
              "Please download 'model.pt' from the GitHub repository";
              "and place it in the same folder as this script.";
              "---"]
             ∅
             [CallYOLO "model.pt"]).
Proof.
  split; [reflexivity |]. split; [reflexivity |].
  apply (missing_checkpoint_diagnostic Ref.library ∅
           (mkExn FileNotFoundError
              "[Errno 2] No such file or directory: 'model.pt'") ∅);
    reflexivity.
Defined.

Lemma unclassified_error_diagnostic_witness :
  let e := mkExn Ref.UnpicklingError "invalid load key" in
  isinstance e Exception = true ∧
  isinstance e FileNotFoundError = false ∧
  isinstance e ImportError = false ∧
  encodable (StdoutEncoding:=ascii_stdout) (exc_str e) = true ∧
  YOLO Ref.library pytorch_model_file junk_dir = (Raised e, junk_dir) ∧
  run (enc:=ascii_stdout) (mkEnv (Some Ref.library) junk_dir) =
    (Returned tt,
     mkWorld ["Loading PyTorch model: model.pt...";
              nl +:+ "--- AN ERROR OCCURRED ---";
              "invalid load key";
              "---"]
             junk_dir
             [CallYOLO "model.pt"]).
Proof.
  do 5 (split; [reflexivity |]).
  apply (proj1 (unclassified_error_diagnostic (enc:=ascii_stdout)
                  Ref.library junk_dir
                  (mkExn Ref.UnpicklingError "invalid load key")
                  eq_refl eq_refl eq_refl eq_refl) junk_dir).
  reflexivity.
Defined.

Lemma export_call_arguments_witness :
  let env := mkEnv (Some Ref.library) valid_dir in
  let m := Ref.mkModel "model.pt" "PK-weights" in
  let kw := [("format", VStr "onnx"); ("imgsz", VInt 640%Z)] in
  CallExport m [] kw ∈ calls (snd (run env)) ∧
  ultralytics env = Some Ref.library ∧
  YOLO Ref.library pytorch_model_file (cwd env) = (Returned m, valid_dir) ∧
  export Ref.library m [] kw valid_dir
    = (Returned (VStr "model.onnx"),
       <["model.onnx" := "ONNX PK-weights"]> valid_dir) ∧
  ([] = @nil PyVal ∧ kw = [("format", VStr "onnx"); ("imgsz", VInt 640%Z)]) ∧
  files (snd (run env)) = <["model.onnx" := "ONNX PK-weights"]> valid_dir ∧
  fst (run env) = Returned tt.
Proof.
  assert (H : CallExport (Ref.mkModel "model.pt" "PK-weights") []
                [("format", VStr "onnx"); ("imgsz", VInt 640%Z)]
              ∈ calls (snd (run (mkEnv (Some Ref.library) valid_dir)))).
  { vm_compute. apply list_elem_of_further, list_elem_of_here. }
  split; [exact H |]. do 3 (split; [reflexivity |]).
  destruct (export_call_arguments (mkEnv (Some Ref.library) valid_dir))
    as (Hargs & Hrun).
  split; [exact (Hargs _ _ _ H) |].
  destruct (Hrun Ref.library (Ref.mkModel "model.pt" "PK-weights") valid_dir
              eq_refl eq_refl) as (Hfiles & Hret & _).
  split; [exact Hfiles | exact (Hret (VStr "model.onnx") eq_refl)].
Defined.

Lemma load_precedes_export_witness :
  let env := mkEnv (Some Ref.library) valid_dir in
  let m := Ref.mkModel "model.pt" "PK-weights" in
  ultralytics env = Some Ref.library ∧
  YOLO Ref.library pytorch_model_file (cwd env) = (Returned m, valid_dir) ∧
  calls (snd (run env)) !! 0 = Some (CallYOLO "model.pt") ∧
  calls (snd (run env)) = [CallYOLO "model.pt"; CallExport m [] export_kwargs] ∧
  files (snd (run env)) = <["model.onnx" := "ONNX PK-weights"]> valid_dir ∧
  fst (run env) = Returned tt.
Proof.
  do 2 (split; [reflexivity |]).
  pose proof (load_precedes_export (mkEnv (Some Ref.library) valid_dir))
    as (_ & _ & H).
  destruct (H Ref.library eq_refl) as (H0 & Hm & _ & _ & Hexp).
  split; [exact H0 |]. split; [apply Hm; reflexivity |].
  destruct (Hexp (Ref.mkModel "model.pt" "PK-weights") valid_dir eq_refl)
    as (Hfiles & Hret & _).
  split; [exact Hfiles | exact (Hret (VStr "model.onnx") eq_refl)].
Defined.

Lemma rerun_succeeds_witness :
  let first := run (mkEnv (Some Ref.library) stale_dir) in
  let second := run (mkEnv (Some Ref.library) (files (snd first))) in
  stale_dir !! "model.pt" = Some "PK-weights" ∧
  String.prefix "PK" "PK-weights" = true ∧
  stale_dir !! "model.onnx" = Some "stale" ∧
  files (snd first) !! "model.onnx" = Some "ONNX PK-weights" ∧
  fst second = Returned tt ∧
  files (snd second) = files (snd first).
Proof.
  do 3 (split; [reflexivity |]).
  pose proof (rerun_succeeds (enc:=utf8_stdout) stale_dir "PK-weights"
                eq_refl eq_refl)
    as (_ & H2 & _ & _ & _ & _ & H7 & H8 & _).
  split; [rewrite H7; apply lookup_insert_eq |].
  split; [exact H2 | exact H8].
Defined.

Lemma ordinary_exceptions_are_handled_witness :
  let e := mkExn Ref.UnpicklingError "invalid load key" in
  let w' := mkWorld ["Loading PyTorch model: model.pt..."] junk_dir
                    [CallYOLO "model.pt"] in
  let r := run (enc:=ascii_stdout) (mkEnv (Some Ref.library) junk_dir) in
  try_body (enc:=ascii_stdout) Ref.library (mkWorld [] junk_dir [])
    = (Raised e, w') ∧
  isinstance e Exception = true ∧
  encodable (StdoutEncoding:=ascii_stdout) (exc_str e) = true ∧
  fst r = Returned tt ∧ exit_status r = Some 0%Z.
Proof.
  do 3 (split; [reflexivity |]).
  pose proof (ordinary_exceptions_are_handled (enc:=ascii_stdout)
                Ref.library junk_dir
                (mkExn Ref.UnpicklingError "invalid load key")
                (mkWorld ["Loading PyTorch model: model.pt..."] junk_dir
                         [CallYOLO "model.pt"])
                eq_refl eq_refl) as (_ & H & _).
  exact (H (or_intror (or_intror eq_refl))).
Defined.

Lemma success_banner_is_constant_witness :
  let m := Ref.mkModel "model.pt" "PK-weights" in
  let after := <["model.onnx" := "ONNX PK-weights"]> valid_dir in
  YOLO Ref.library pytorch_model_file valid_dir = (Returned m, valid_dir) ∧
  export Ref.library m [] export_kwargs valid_dir
    = (Returned (VStr "model.onnx"), after) ∧
  stdout (snd (run (mkEnv (Some Ref.library) valid_dir))) =
    ["Loading PyTorch model: model.pt...";
     "Model loaded successfully.";
     "Exporting model to ONNX: stockmarket-pattern-detection-yolov8.onnx...";
     nl +:+ "---";
     "Success! 'stockmarket-pattern-detection-yolov8.onnx' has been created.";
     "You can now run your MATLAB backtester.";
     "---"].
Proof.
  split; [reflexivity |]. split; [reflexivity |].
  exact (success_banner_is_constant Ref.library valid_dir _ _ _ _
           eq_refl eq_refl).
Defined.

(** * Further properties of the script *)

Lemma mro_ImportError_excludes (c : ExcClass) :
  ImportError ∈ mro c → FileNotFoundError ∉ mro c.
Proof.
  induction c as [ | | | | | | | | | n b IH]; simpl.
  10: {
    rewrite !elem_of_cons. intros [? | H]; [discriminate |].
    intros [? | H']; [discriminate |]. by apply (IH H). }
  all: rewrite !elem_of_cons, !elem_of_nil; intuition discriminate.
Qed.

(** With single inheritance the first two clauses never compete. *)
Lemma ImportError_not_FileNotFoundError (e : Exn) :
  isinstance e ImportError = true → isinstance e FileNotFoundError = false.
Proof.
  unfold isinstance, issubclass.
  rewrite bool_decide_eq_true, bool_decide_eq_false.
  apply mro_ImportError_excludes.
Qed.

Section Further.

Context {Model : Type} {enc : StdoutEncoding}.
Implicit Types (lib : Library Model) (w : World Model) (e : Exn)
  (fs : gmap string string) (m : Model) (v : PyVal).

Lemma run_raised lib fs e w' :
  try_body lib (mkWorld [] fs []) = (Raised e, w') →
  run (mkEnv (Some lib) fs) = dispatch handlers e w'.
Proof. intros H. rewrite run_imported. by apply try_statement_raised. Qed.

(** X1: an [ImportError] (or a subclass, such as [ModuleNotFoundError])
    raised by the load or by the export, with [ultralytics] imported, takes
    the second clause: after the progress lines the script prints the five
    lines that say the [ultralytics] library is not found, and returns
    normally. *)
Theorem import_error_in_body_diagnostic lib fs e :
  isinstance e ImportError = true →
  (∀ fs',
     YOLO lib pytorch_model_file fs = (Raised e, fs') →
     run (mkEnv (Some lib) fs) =
       (Returned tt,
        mkWorld ["Loading PyTorch model: model.pt...";
                 nl +:+ "--- ERROR ---";
                 "The 'ultralytics' library is not found.";
                 "Please install it by running:";
                 "pip install ultralytics";
                 "---"]
                fs'
                [CallYOLO "model.pt"])) ∧
  (∀ m fs1 fs2,
     YOLO lib pytorch_model_file fs = (Returned m, fs1) →
     export lib m [] export_kwargs fs1 = (Raised e, fs2) →
     run (mkEnv (Some lib) fs) =
       (Returned tt,
        mkWorld ["Loading PyTorch model: model.pt...";
                 "Model loaded successfully.";
                 "Exporting model to ONNX: stockmarket-pattern-detection-yolov8.onnx...";
                 nl +:+ "--- ERROR ---";
                 "The 'ultralytics' library is not found.";
                 "Please install it by running:";
                 "pip install ultralytics";
                 "---"]
                fs2
                [CallYOLO "model.pt"; CallExport m [] export_kwargs])).
Proof.
  intros HI. pose proof (ImportError_not_FileNotFoundError e HI) as HF. split.
  - intros fs' Hload.
    rewrite (run_raised _ _ _ _
               (try_body_load_raises lib (mkWorld [] fs []) _ _ Hload)).
    by rewrite (dispatch_ImportError _ HF HI), on_ImportError_run.
  - intros m fs1 fs2 Hload Hexp.
    rewrite (run_raised _ _ _ _
               (try_body_export_raises lib (mkWorld [] fs []) _ _ _ _ Hload Hexp)).
    by rewrite (dispatch_ImportError _ HF HI), on_ImportError_run.
Qed.

(** X2: the first clause does not look at which call raised: when the load
    returned and the export raises a [FileNotFoundError], the script
    prints, after [Model loaded successfully.] and the exporting line, the
    diagnostic [File not found: model.pt], and returns normally. *)
Theorem export_file_not_found_diagnostic lib fs m fs1 e fs2 :
  YOLO lib pytorch_model_file fs = (Returned m, fs1) →
  export lib m [] export_kwargs fs1 = (Raised e, fs2) →
  isinstance e FileNotFoundError = true →
  run (mkEnv (Some lib) fs) =
    (Returned tt,
     mkWorld ["Loading PyTorch model: model.pt...";
              "Model loaded successfully.";
              "Exporting model to ONNX: stockmarket-pattern-detection-yolov8.onnx...";
              nl +:+ "--- ERROR ---";
              "File not found: model.pt";
              "Please download 'model.pt' from the GitHub repository";
              "and place it in the same folder as this script.";
              "---"]
             fs2
             [CallYOLO "model.pt"; CallExport m [] export_kwargs]).
Proof.
  intros Hload Hexp HF.
  rewrite (run_raised _ _ _ _
             (try_body_export_raises lib (mkWorld [] fs []) _ _ _ _ Hload Hexp)).
  by rewrite (dispatch_FileNotFoundError _ HF), on_FileNotFoundError_run.
Qed.

(** X3: an exception that is not an instance of [Exception] goes through
    all three clauses: the run ends with it unhandled, and the script has
    printed its progress lines up to the failing call and nothing else. *)
Theorem non_exception_leaves_the_script lib fs e :
  isinstance e Exception = false →
  (∀ fs',
     YOLO lib pytorch_model_file fs = (Raised e, fs') →
     run (mkEnv (Some lib) fs) =
       (Raised e,
        mkWorld ["Loading PyTorch model: model.pt..."] fs'
                [CallYOLO "model.pt"])) ∧
  (∀ m fs1 fs2,
     YOLO lib pytorch_model_file fs = (Returned m, fs1) →
     export lib m [] export_kwargs fs1 = (Raised e, fs2) →
     run (mkEnv (Some lib) fs) =
       (Raised e,
        mkWorld ["Loading PyTorch model: model.pt...";
                 "Model loaded successfully.";
                 "Exporting model to ONNX: stockmarket-pattern-detection-yolov8.onnx..."]
                fs2
                [CallYOLO "model.pt"; CallExport m [] export_kwargs])).
Proof.
  intros HE. split.
  - intros fs' Hload.
    rewrite (run_raised _ _ _ _
               (try_body_load_raises lib (mkWorld [] fs []) _ _ Hload)).
    by rewrite (dispatch_uncaught _ HE).
  - intros m fs1 fs2 Hload Hexp.
    rewrite (run_raised _ _ _ _
               (try_body_export_raises lib (mkWorld [] fs []) _ _ _ _ Hload Hexp)).
    by rewrite (dispatch_uncaught _ HE).
Qed.

(** What a run that raised in the body has printed, clause by clause. *)
Lemma dispatch_stdout e w :
  stdout (snd (dispatch handlers e w)) =
    (stdout w ++
    (if isinstance e FileNotFoundError then
       [nl +:+ "--- ERROR ---"; "File not found: model.pt";
        "Please download 'model.pt' from the GitHub repository";
        "and place it in the same folder as this script."; "---"]
     else if isinstance e ImportError then
       [nl +:+ "--- ERROR ---"; "The 'ultralytics' library is not found.";
        "Please install it by running:"; "pip install ultralytics"; "---"]
     else if isinstance e Exception then
       if encodable (exc_str e)
       then [nl +:+ "--- AN ERROR OCCURRED ---"; exc_str e; "---"]
       else [nl +:+ "--- AN ERROR OCCURRED ---"]
     else []))%list.
Proof.
  unfold handlers. cbn [dispatch].
  destruct (isinstance e FileNotFoundError);
    [by rewrite on_FileNotFoundError_run |].
  destruct (isinstance e ImportError); [by rewrite on_ImportError_run |].
  destruct (isinstance e Exception); [| simpl; by rewrite app_nil_r].
  destruct (encodable (exc_str e)) eqn:H.
  - by rewrite (on_Exception_run _ _ H).
  - by rewrite (on_Exception_raises _ _ H).
Qed.

(** Whether the clause returned. *)
Lemma dispatch_returns e w :
  fst (dispatch handlers e w) = Returned tt →
  isinstance e FileNotFoundError = true ∨ isinstance e ImportError = true ∨
  (isinstance e Exception = true ∧ encodable (exc_str e) = true).
Proof.
  unfold handlers. cbn [dispatch].
  destruct (isinstance e FileNotFoundError); [by left |].
  destruct (isinstance e ImportError); [by right; left |].
  destruct (isinstance e Exception); [| discriminate].
  destruct (encodable (exc_str e)) eqn:H; [by right; right |].
  by rewrite (on_Exception_raises _ _ H).
Qed.

(** X4: the seven lines of a successful run are printed by successful
    runs only: the output of a run is those lines exactly when the library
    was imported and both the load and the export returned.  No failing
    run, whatever text its exception carries, prints them. *)
Theorem success_output_iff_success (env : Env Model) :
  stdout (snd (run env)) =
    ["Loading PyTorch model: model.pt...";
     "Model loaded successfully.";
     "Exporting model to ONNX: stockmarket-pattern-detection-yolov8.onnx...";
     nl +:+ "---";
     "Success! 'stockmarket-pattern-detection-yolov8.onnx' has been created.";
     "You can now run your MATLAB backtester.";
     "---"]
  ↔ ∃ lib m fs1 v fs2,
      ultralytics env = Some lib ∧
      YOLO lib pytorch_model_file (cwd env) = (Returned m, fs1) ∧
      export lib m [] export_kwargs fs1 = (Returned v, fs2).
Proof.
  split.
  - destruct env as [[lib |] fs]; [| discriminate].
    destruct (YOLO lib pytorch_model_file fs) as [[m | e] fs1] eqn:H1.
    + destruct (export lib m [] export_kwargs fs1) as [[v | e] fs2] eqn:H2.
      * intros _. exists lib, m, fs1, v, fs2. by simpl.
      * rewrite (run_raised _ _ _ _
                   (try_body_export_raises lib (mkWorld [] fs []) _ _ _ _ H1 H2)).
        rewrite dispatch_stdout. simpl.
        destruct (isinstance e FileNotFoundError); [discriminate |].
        destruct (isinstance e ImportError); [discriminate |].
        destruct (isinstance e Exception); [| discriminate].
        destruct (encodable (exc_str e)); discriminate.
    + rewrite (run_raised _ _ _ _
                 (try_body_load_raises lib (mkWorld [] fs []) _ _ H1)).
      rewrite dispatch_stdout. simpl.
      destruct (isinstance e FileNotFoundError); [discriminate |].
      destruct (isinstance e ImportError); [discriminate |].
      destruct (isinstance e Exception); [| discriminate].
      destruct (encodable (exc_str e)); discriminate.
  - intros (lib & m & fs1 & v & fs2 & Hlib & H1 & H2).
    destruct env as [o fs]. simpl in *. subst o.
    change (convert_to_onnx (mkEnv (Some lib) fs) (mkWorld [] fs []))
      with (run (mkEnv (Some lib) fs)).
    by rewrite (run_returns _ _ _ _ _ _ H1 H2).
Qed.

(** X5: the script touches the directory through the two library calls
    only: a property of the directory that the library's load and export
    keep, and that holds when the run starts, holds when it ends, however
    it ends. *)
Theorem directory_invariant_kept (P : gmap string string → Prop) (env : Env Model) :
  (∀ lib path fs,
     ultralytics env = Some lib → P fs → P (snd (YOLO lib path fs))) →
  (∀ lib m args kwargs fs,
     ultralytics env = Some lib → P fs → P (snd (export lib m args kwargs fs))) →
  P (cwd env) →
  P (files (snd (run env))).
Proof.
  destruct env as [[lib |] fs]; simpl; intros HY HX H0; [| done].
  change (convert_to_onnx (mkEnv (Some lib) fs) (mkWorld [] fs []))
    with (run (mkEnv (Some lib) fs)).
  rewrite run_imported, (proj1 (try_statement_keeps _ _)).
  pose proof (HY lib pytorch_model_file fs eq_refl H0) as H1.
  destruct (try_body_path lib (mkWorld [] fs [])) as
    [e fs' E1 | m fs1 e fs2 E1 E2 | m fs1 v fs2 E1 E2];
    simpl in *; rewrite E1 in H1; simpl in H1; [done | |].
  - pose proof (HX lib m [] export_kwargs fs1 eq_refl H1) as H2.
    by rewrite E2 in H2.
  - pose proof (HX lib m [] export_kwargs fs1 eq_refl H1) as H2.
    by rewrite E2 in H2.
Qed.

(** X6: the second line of the output tells whether the load returned: it
    is [Model loaded successfully.] exactly when it did. *)
Theorem loaded_line_iff_load_returned lib fs :
  stdout (snd (run (mkEnv (Some lib) fs))) !! 1 = Some "Model loaded successfully."
  ↔ ∃ m fs1, YOLO lib pytorch_model_file fs = (Returned m, fs1).
Proof.
  destruct (YOLO lib pytorch_model_file fs) as [[m | e] fs1] eqn:H1.
  - split; [intros _; by exists m, fs1 |]. intros _.
    destruct (export lib m [] export_kwargs fs1) as [[v | e] fs2] eqn:H2.
    + by rewrite (run_returns _ _ _ _ _ _ H1 H2).
    + rewrite (run_raised _ _ _ _
                 (try_body_export_raises lib (mkWorld [] fs []) _ _ _ _ H1 H2)).
      by rewrite dispatch_stdout.
  - split; [| by intros (? & ? & ?)].
    rewrite (run_raised _ _ _ _
               (try_body_load_raises lib (mkWorld [] fs []) _ _ H1)).
    rewrite dispatch_stdout. simpl.
    destruct (isinstance e FileNotFoundError); [discriminate |].
    destruct (isinstance e ImportError); [discriminate |].
    destruct (isinstance e Exception); [| discriminate].
    destruct (encodable (exc_str e)); discriminate.
Qed.

(** X7: every run that got past the import starts its output with the
    loading line, and every such run that returns normally, with the
    banner or with a diagnostic, ends it with the line [---]. *)
Theorem output_is_framed lib fs :
  let r := run (mkEnv (Some lib) fs) in
  stdout (snd r) !! 0 = Some "Loading PyTorch model: model.pt..." ∧
  (fst r = Returned tt → last (stdout (snd r)) = Some "---").
Proof.
  simpl.
  change (convert_to_onnx (mkEnv (Some lib) fs) (mkWorld [] fs []))
    with (run (mkEnv (Some lib) fs)).
  assert (Hraised : ∀ e (w' : World Model) pre,
            stdout w' = "Loading PyTorch model: model.pt..." :: pre →
            let r := dispatch handlers e w' in
            stdout (snd r) !! 0 = Some "Loading PyTorch model: model.pt..." ∧
            (fst r = Returned tt → last (stdout (snd r)) = Some "---")).
  { intros e w' pre Hpre. cbn zeta. rewrite dispatch_stdout, Hpre.
    split; [done |]. intros Hret.
    destruct (dispatch_returns _ _ Hret) as [-> | [HI | [HE Henc]]].
    - by rewrite last_app.
    - rewrite HI. destruct (isinstance e FileNotFoundError);
        by rewrite last_app.
    - rewrite HE, Henc.
      destruct (isinstance e FileNotFoundError);
        [by rewrite last_app |].
      destruct (isinstance e ImportError);
        by rewrite last_app. }
  destruct (YOLO lib pytorch_model_file fs) as [[m | e] fs1] eqn:H1.
  - destruct (export lib m [] export_kwargs fs1) as [[v | e] fs2] eqn:H2.
    + by rewrite (run_returns _ _ _ _ _ _ H1 H2).
    + rewrite (run_raised _ _ _ _
                 (try_body_export_raises lib (mkWorld [] fs []) _ _ _ _ H1 H2)).
      by eapply Hraised.
  - rewrite (run_raised _ _ _ _
               (try_body_load_raises lib (mkWorld [] fs []) _ _ H1)).
    by eapply Hraised.
Qed.

End Further.

(** ** Concrete runs for the further properties *)

Lemma Ref_load_keeps (path : string) (fs : gmap string string) :
  snd (Ref.load path fs) = fs.
Proof. unfold Ref.load. destruct (fs !! path); [| done]. by case_match. Qed.

Lemma append_onnx_ne (s : string) : s +:+ ".onnx" ≠ "model.pt".
Proof.
  do 9 (destruct s as [| ? s]; [cbv [String.append]; congruence |]).
  cbv [String.append]. congruence.
Qed.

Lemma Ref_export_keeps_checkpoint (m : Ref.Model) (args : list PyVal)
    (kwargs : list (string * PyVal)) (fs : gmap string string) :
  snd (Ref.export_model m args kwargs fs) !! "model.pt" = fs !! "model.pt".
Proof.
  unfold Ref.export_model.
  repeat case_match; simpl; try done.
  apply lookup_insert_ne, append_onnx_ne.
Qed.

Lemma import_error_in_body_diagnostic_witness :
  let lib := failing_export no_onnx_module in
  let m := Ref.mkModel "model.pt" "PK-weights" in
  isinstance no_onnx_module ImportError = true ∧
  YOLO lib pytorch_model_file valid_dir = (Returned m, valid_dir) ∧
  export lib m [] export_kwargs valid_dir = (Raised no_onnx_module, valid_dir) ∧
  run (mkEnv (Some lib) valid_dir) =
    (Returned tt,
     mkWorld ["Loading PyTorch model: model.pt...";
              "Model loaded successfully.";
              "Exporting model to ONNX: stockmarket-pattern-detection-yolov8.onnx...";
              nl +:+ "--- ERROR ---";
              "The 'ultralytics' library is not found.";
              "Please install it by running:";
              "pip install ultralytics";
              "---"]
             valid_dir
             [CallYOLO "model.pt"; CallExport m [] export_kwargs]).
Proof.
  do 3 (split; [reflexivity |]).
  apply (proj2 (import_error_in_body_diagnostic
                  (failing_export no_onnx_module) valid_dir no_onnx_module
                  eq_refl)
           (Ref.mkModel "model.pt" "PK-weights") valid_dir valid_dir);
    reflexivity.
Defined.

Lemma export_file_not_found_diagnostic_witness :
  let lib := failing_export no_such_dataset in
  let m := Ref.mkModel "model.pt" "PK-weights" in
  YOLO lib pytorch_model_file valid_dir = (Returned m, valid_dir) ∧
  export lib m [] export_kwargs valid_dir = (Raised no_such_dataset, valid_dir) ∧
  isinstance no_such_dataset FileNotFoundError = true ∧
  valid_dir !! "model.pt" = Some "PK-weights" ∧
  "File not found: model.pt" ∈ stdout (snd (run (mkEnv (Some lib) valid_dir))).
Proof.
  do 4 (split; [reflexivity |]).
  rewrite (export_file_not_found_diagnostic
             (failing_export no_such_dataset) valid_dir
             (Ref.mkModel "model.pt" "PK-weights") valid_dir
             no_such_dataset valid_dir eq_refl eq_refl eq_refl).
  simpl. do 4 apply list_elem_of_further. apply list_elem_of_here.
Defined.

Lemma non_exception_leaves_the_script_witness :
  isinstance keyboard_interrupt Exception = false ∧
  YOLO interrupted_library pytorch_model_file valid_dir
    = (Raised keyboard_interrupt, valid_dir) ∧
  run (mkEnv (Some interrupted_library) valid_dir) =
    (Raised keyboard_interrupt,
     mkWorld ["Loading PyTorch model: model.pt..."] valid_dir
             [CallYOLO "model.pt"]).
Proof.
  do 2 (split; [reflexivity |]).
  apply (proj1 (non_exception_leaves_the_script
                  interrupted_library valid_dir keyboard_interrupt eq_refl)
           valid_dir).
  reflexivity.
Defined.

Lemma success_output_iff_success_witness :
  ∃ lib m fs1 v fs2,
    ultralytics (mkEnv (Some Ref.library) valid_dir) = Some lib ∧
    YOLO lib pytorch_model_file valid_dir = (Returned m, fs1) ∧
    export lib m [] export_kwargs fs1 = (Returned v, fs2).
Proof.
  apply (proj1 (success_output_iff_success (mkEnv (Some Ref.library) valid_dir))).
  reflexivity.
Defined.

Lemma directory_invariant_kept_witness :
  let P := λ fs : gmap string string, fs !! "model.pt" = Some "PK-weights" in
  P valid_dir ∧ P (files (snd (run (mkEnv (Some Ref.library) valid_dir)))).
Proof.
  split; [reflexivity |].
  apply (directory_invariant_kept
           (λ fs : gmap string string, fs !! "model.pt" = Some "PK-weights")
           (mkEnv (Some Ref.library) valid_dir)).
  - intros lib path fs [= <-] H. simpl. by rewrite Ref_load_keeps.
  - intros lib m args kwargs fs [= <-] H. simpl.
    by rewrite Ref_export_keeps_checkpoint.
  - reflexivity.
Defined.

Lemma loaded_line_iff_load_returned_witness :
  (∃ m fs1, YOLO Ref.library pytorch_model_file valid_dir = (Returned m, fs1)) ∧
  stdout (snd (run (mkEnv (Some Ref.library) valid_dir))) !! 1
    = Some "Model loaded successfully.".
Proof.
  assert (H : ∃ m fs1,
            YOLO Ref.library pytorch_model_file valid_dir = (Returned m, fs1)).
  { exists (Ref.mkModel "model.pt" "PK-weights"), valid_dir. reflexivity. }
  split; [exact H |].
  exact (proj2 (loaded_line_iff_load_returned Ref.library valid_dir) H).
Defined.

Lemma output_is_framed_witness :
  let r := run (mkEnv (Some Ref.library) junk_dir) in
  fst r = Returned tt ∧ last (stdout (snd r)) = Some "---".
Proof.
  split; [reflexivity |].
  apply (proj2 (output_is_framed Ref.library junk_dir)). reflexivity.
Defined.
